(** * InformationExtractor: the document question-answering script [demo.py]

    A shallow embedding of [normalize_path] and [main] and the properties
    the specification states about them.

    Python [str] values are modelled as [string]; an [ascii] stands for the
    code point of the same number, so the model covers text whose code points
    are below 256.  The character tables ([str.lower], [str.isspace]) are the
    ones CPython uses on that range. *)

From Stdlib Require Import Bool Arith List Lia.
From Stdlib Require Import Ascii String.
From Stdlib Require Import PrimFloat.
Import ListNotations.

Local Open Scope string_scope.

(** ** Python string operations used by the script *)

Module PyStr.

(** [c in s] for a one-character [c]. *)
Fixpoint contains (c : ascii) (s : string) : bool :=
  match s with
  | EmptyString => false
  | String d s' => if Ascii.eqb d c then true else contains c s'
  end.

(** The text before and after the first [sep], if there is one. *)
Fixpoint partition (sep : ascii) (s : string) : option (string * string) :=
  match s with
  | EmptyString => None
  | String d s' =>
      if Ascii.eqb d sep then Some (EmptyString, s')
      else match partition sep s' with
           | Some (l, r) => Some (String d l, r)
           | None => None
           end
  end.

(** [s.split(sep, 1)] for a one-character [sep]: one cut at most, so a list
    of two pieces when [sep] occurs and the one-element list [[s]] when it
    does not. *)
Definition split1 (sep : ascii) (s : string) : list string :=
  match partition sep s with
  | Some (l, r) => [l; r]
  | None => [s]
  end.

(** [str.lower] on one code point below 256: the ASCII capitals and the
    Latin-1 capitals U+00C0..U+00DE, the multiplication sign U+00D7 apart,
    move up by 32; no other code point of the range changes. *)
Definition lower_char (c : ascii) : ascii :=
  let n := nat_of_ascii c in
  if (((65 <=? n) && (n <=? 90))
      || ((192 <=? n) && (n <=? 222) && negb (n =? 215)))%nat
  then ascii_of_nat (n + 32)
  else c.

(** [s.lower()]. *)
Fixpoint lower (s : string) : string :=
  match s with
  | EmptyString => EmptyString
  | String c s' => String (lower_char c) (lower s')
  end.

(** [s.replace(old, new)] for one-character [old] and [new]. *)
Fixpoint replace (old new : ascii) (s : string) : string :=
  match s with
  | EmptyString => EmptyString
  | String c s' =>
      String (if Ascii.eqb c old then new else c) (replace old new s')
  end.

(** [str.isspace] on one code point below 256: TAB, LF, VT, FF, CR, the
    separators U+001C..U+001F, the space, NEL (U+0085) and the no-break
    space (U+00A0). *)
Definition isspace (c : ascii) : bool :=
  let n := nat_of_ascii c in
  (((9 <=? n) && (n <=? 13)) || ((28 <=? n) && (n <=? 32))
   || (n =? 133) || (n =? 160))%nat.

(** [s.lstrip()]. *)
Fixpoint lstrip (s : string) : string :=
  match s with
  | EmptyString => EmptyString
  | String c s' => if isspace c then lstrip s' else s
  end.

(** [s.rstrip()]. *)
Fixpoint rstrip (s : string) : string :=
  match s with
  | EmptyString => EmptyString
  | String c s' =>
      match rstrip s' with
      | EmptyString => if isspace c then EmptyString else String c EmptyString
      | r => String c r
      end
  end.

(** [s.strip()]: the left end is found first, then the right end. *)
Definition strip (s : string) : string := rstrip (lstrip s).

(** [s[:n]]. *)
Fixpoint take (n : nat) (s : string) : string :=
  match n, s with
  | S n', String c s' => String c (take n' s')
  | _, _ => EmptyString
  end.

(** [s[n:]]. *)
Fixpoint drop (n : nat) (s : string) : string :=
  match n, s with
  | S n', String _ s' => drop n' s'
  | _, _ => s
  end.

(** Every character of [s] is white space. *)
Fixpoint all_space (s : string) : bool :=
  match s with
  | EmptyString => true
  | String c s' => isspace c && all_space s'
  end.

(** The first and the last character of [s], if any. *)
Definition first_char (s : string) : option ascii :=
  match s with
  | EmptyString => None
  | String c _ => Some c
  end.

Fixpoint last_char (s : string) : option ascii :=
  match s with
  | EmptyString => None
  | String c EmptyString => Some c
  | String _ s' => last_char s'
  end.

(** [s] repeated: [n] copies of the character [c]. *)
Fixpoint repeat (c : ascii) (n : nat) : string :=
  match n with
  | O => EmptyString
  | S n' => String c (repeat c n')
  end.

End PyStr.

(** ** Exceptions and fallible results *)

(** The exceptions a run can end with: the [ValueError] of the script and
    of a failed unpacking, [EOFError] of [input], the errors of [open] and
    [read], an error of the client library, and the two errors of reading
    [choices[0].message.content] off a reply that has no choice or no text. *)
Inductive exn : Type :=
| ValueError (msg : string)
| EOFError
| OSError
| UnicodeDecodeError
| APIError
| IndexError
| AttributeError.

(** A value, or the exception raised instead. *)
Inductive result (A : Type) : Type :=
| Ok (a : A)
| Raise (e : exn).

Arguments Ok {A} a.
Arguments Raise {A} e.

(** ** [normalize_path] *)

(** The two-target assignment [drive, rest = path.split(":", 1)] raises
    [ValueError] when the list does not have exactly two items. *)
Definition normalize_path (path : string) : result string :=
  if PyStr.contains ":" path && PyStr.contains "\" path then
    match PyStr.split1 ":" path with
    | [drive; rest] =>
        let drive := PyStr.lower drive in
        let rest := PyStr.replace "\" "/" rest in
        Ok ("/mnt/" ++ drive ++ rest)
    | _ :: _ :: _ :: _ =>
        Raise (ValueError "too many values to unpack (expected 2)")
    | _ =>
        Raise (ValueError "not enough values to unpack (expected 2, got 1)")
    end
  else Ok path.

(** ** The outside world of one run *)

(** The client object built by [OpenAI(api_key=..., base_url=...)]. *)
Record Client : Type := OpenAI {
  api_key : option string;
  base_url : string
}.

(** One entry of the [messages] list of a request. *)
Record Message : Type := mkMessage {
  role : string;
  content : string
}.

(** The keyword arguments of [client.chat.completions.create]. *)
Record Request : Type := mkRequest {
  model : string;
  messages : list Message;
  temperature : float
}.

(** The part of a chat completion the script looks at:
    [response.choices[i].message.content], which may be [None]. *)
Record ChatMessage : Type := mkChatMessage {
  message_content : option string
}.

Record Choice : Type := mkChoice {
  message : ChatMessage
}.

Record ChatCompletion : Type := mkChatCompletion {
  choices : list Choice
}.

(** Everything a run reads from outside: the process environment, the lines
    waiting on standard input (without their line ends), the file system and
    the remote endpoint. *)
Record World : Type := mkWorld {
  environ : string -> option string;
  stdin : list string;
  path_exists : string -> bool;
  file_text : string -> result string;
  endpoint : Client -> Request -> result ChatCompletion
}.

(** What a run does to the outside, in order. *)
Inductive event : Type :=
| EvGetenv (name : string)
| EvPrompt (text : string)
| EvReadLine
| EvExists (path : string)
| EvOpenRead (path : string)
| EvRequest (client : Client) (req : Request)
| EvPrint (text : string).

(** The lines not yet read from standard input and the events so far. *)
Record State : Type := mkState {
  unread : list string;
  trace : list event
}.

(** ** A state and exception monad for the script's statements *)

Definition IO (A : Type) : Type := World -> State -> result A * State.

Definition ret {A : Type} (a : A) : IO A := fun _ st => (Ok a, st).

Definition raise {A : Type} (e : exn) : IO A := fun _ st => (Raise e, st).

Definition bind {A B : Type} (m : IO A) (k : A -> IO B) : IO B :=
  fun w st =>
    match m w st with
    | (Ok a, st') => k a w st'
    | (Raise e, st') => (Raise e, st')
    end.

Notation "x <- m ;; k" := (bind m (fun x => k))
  (at level 61, m at next level, right associativity).
Notation "m ;;; k" := (bind m (fun _ => k))
  (at level 61, right associativity).

Definition emit (e : event) : IO unit :=
  fun _ st => (Ok tt, mkState (unread st) (trace st ++ [e])).

(** A pure computation that may raise. *)
Definition lift {A : Type} (r : result A) : IO A := fun _ st => (r, st).

(** [os.getenv(name)]. *)
Definition os_getenv (name : string) : IO (option string) :=
  emit (EvGetenv name) ;;;
  fun w st => (Ok (environ w name), st).

(** [input(text)]: the text goes to standard output, then one line is taken
    from standard input; [EOFError] when none is left. *)
Definition input (text : string) : IO string :=
  emit (EvPrompt text) ;;;
  emit EvReadLine ;;;
  fun _ st =>
    match unread st with
    | [] => (Raise EOFError, st)
    | line :: more => (Ok line, mkState more (trace st))
    end.

(** [print(text)]. *)
Definition print (text : string) : IO unit := emit (EvPrint text).

(** [os.path.exists(path)]. *)
Definition os_path_exists (path : string) : IO bool :=
  emit (EvExists path) ;;;
  fun w st => (Ok (path_exists w path), st).

(** [with open(path, "r", encoding="utf-8") as f: f.read()]. *)
Definition open_read (path : string) : IO string :=
  emit (EvOpenRead path) ;;;
  fun w st => (file_text w path, st).

(** [client.chat.completions.create(...)]. *)
Definition chat_completions_create (client : Client) (req : Request)
  : IO ChatCompletion :=
  emit (EvRequest client req) ;;;
  fun w st => (endpoint w client req, st).

(** [not v] for a value that is [None] or a string. *)
Definition py_not (v : option string) : bool :=
  match v with
  | None => true
  | Some EmptyString => true
  | Some (String _ _) => false
  end.

(** [l[0]]. *)
Definition item0 {A : Type} (l : list A) : result A :=
  match l with
  | [] => Raise IndexError
  | a :: _ => Ok a
  end.

(** [v.strip()] for a value that is [None] or a string. *)
Definition strip_method (v : option string) : result string :=
  match v with
  | None => Raise AttributeError
  | Some s => Ok (PyStr.strip s)
  end.

(** ** [main] *)

(** The line feed, ["\n"] in the script. *)
Definition newline : string := String "010" EmptyString.

(** The three fixed pieces of the prompt template, line feeds and
    indentation as in the script. *)

Definition prompt_head : string := "
    You are an assistant that extracts information from documents.
    Document:
    ---
    ".

Definition prompt_mid : string := "
    ---
    Question: ".

Definition prompt_tail : string := "
    Provide a concise and clear answer.
    ".

(** The f-string assigned to [prompt]. *)
Definition build_prompt (content question : string) : string :=
  prompt_head ++ PyStr.take 4000 content ++ prompt_mid ++ question
  ++ prompt_tail.

Definition system_message : Message :=
  mkMessage "system" "You are a helpful assistant.".

#[warnings="-inexact-float"]
Definition main : IO unit :=
  key <- os_getenv "GEMINI_API_KEY" ;;
  if py_not key then
    raise (ValueError "Please set your GEMINI_API_KEY environment variable.")
  else
    let client :=
      OpenAI key "https://generativelanguage.googleapis.com/v1beta/openai/" in
    line <- input "Enter path to your text file: " ;;
    file_path <- lift (normalize_path (PyStr.strip line)) ;;
    found <- os_path_exists file_path ;;
    if negb found then
      print "File not found."
    else
      content <- open_read file_path ;;
      line <- input "Enter your question about the document: " ;;
      let question := PyStr.strip line in
      let prompt := build_prompt content question in
      response <- chat_completions_create client
        (mkRequest "gemini-2.0-flash"
                   [system_message; mkMessage "user" prompt]
                   0.3%float) ;;
      print (newline ++ "=== Answer ===") ;;;
      choice <- lift (item0 (choices response)) ;;
      answer <- lift (strip_method (message_content (message choice))) ;;
      print answer.

(** One run of the script: how [main] ends and what it did. *)
Definition run (w : World) : result unit * list event :=
  let (r, st) := main w (mkState (stdin w) []) in (r, trace st).

(** The exit status of the process: [0] when [main] returns, [1] when an
    exception leaves it. *)
Definition exit_code (r : result unit) : nat :=
  match r with
  | Ok _ => 0
  | Raise _ => 1
  end.

(** The arguments of the [print] calls of a trace, in order. *)
Fixpoint printed (t : list event) : list string :=
  match t with
  | [] => []
  | EvPrint s :: t' => s :: printed t'
  | _ :: t' => printed t'
  end.

(** The text a trace leaves on standard output: [input] writes its prompt
    as it is, [print] ends its argument with a line feed. *)
Fixpoint stdout_text (t : list event) : string :=
  match t with
  | [] => EmptyString
  | EvPrompt s :: t' => s ++ stdout_text t'
  | EvPrint s :: t' => s ++ newline ++ stdout_text t'
  | _ :: t' => stdout_text t'
  end.

(** The requests of a trace, in order. *)
Fixpoint requests (t : list event) : list Request :=
  match t with
  | [] => []
  | EvRequest _ r :: t' => r :: requests t'
  | _ :: t' => requests t'
  end.

(** How many lines a trace takes from standard input. *)
Fixpoint reads (t : list event) : nat :=
  match t with
  | [] => 0
  | EvReadLine :: t' => S (reads t')
  | _ :: t' => reads t'
  end.

(** The three kinds of input and output the script performs: the console
    (prompts, lines read, lines printed), the file system and the network. *)
Definition is_console (e : event) : bool :=
  match e with
  | EvPrompt _ | EvReadLine | EvPrint _ => true
  | _ => false
  end.

Definition is_file (e : event) : bool :=
  match e with
  | EvExists _ | EvOpenRead _ => true
  | _ => false
  end.

Definition is_network (e : event) : bool :=
  match e with
  | EvRequest _ _ => true
  | _ => false
  end.

(** The client and the request a run sends for a credential, a document and
    a question, and the two prompts of [input]. *)
Definition sent_client (key : option string) : Client :=
  OpenAI key "https://generativelanguage.googleapis.com/v1beta/openai/".

#[warnings="-inexact-float"]
Definition sent_request (doc question : string) : Request :=
  mkRequest "gemini-2.0-flash"
            [system_message; mkMessage "user" (build_prompt doc question)]
            0.3%float.

Definition path_prompt : string := "Enter path to your text file: ".

Definition question_prompt : string :=
  "Enter your question about the document: ".

Definition credential_error : exn :=
  ValueError "Please set your GEMINI_API_KEY environment variable.".

Definition answer_header : string := newline ++ "=== Answer ===".

Definition credential_variable : string := "GEMINI_API_KEY".

Definition not_found_message : string := "File not found.".

(** What a run has done once it has asked whether the path exists, and once
    it has sent its request. *)
Definition trace_to_exists (path : string) : list event :=
  [EvGetenv credential_variable; EvPrompt path_prompt; EvReadLine;
   EvExists path].

Definition trace_to_question (path : string) : list event :=
  trace_to_exists path
  ++ [EvOpenRead path; EvPrompt question_prompt; EvReadLine].

Definition trace_to_request (key : option string) (path doc question : string)
  : list event :=
  trace_to_question path
  ++ [EvRequest (sent_client key) (sent_request doc question)].

(** ** The ways a run can go

    One constructor for each place where [main] can stop: the [raise] of the
    credential check, an [input] at the end of standard input, the early
    [return], a failing [open] or [read], a failing request, a reply without
    a choice, a choice without text, and the last [print]. *)
Inductive runs (w : World) : result unit * list event -> Prop :=
| runs_no_credential :
    py_not (environ w credential_variable) = true ->
    runs w (Raise credential_error, [EvGetenv credential_variable])
| runs_no_path :
    py_not (environ w credential_variable) = false ->
    stdin w = [] ->
    runs w (Raise EOFError,
            [EvGetenv credential_variable; EvPrompt path_prompt; EvReadLine])
| runs_not_found (line : string) (rest : list string) (path : string) :
    py_not (environ w credential_variable) = false ->
    stdin w = line :: rest ->
    normalize_path (PyStr.strip line) = Ok path ->
    path_exists w path = false ->
    runs w (Ok tt, (trace_to_exists path ++ [EvPrint not_found_message])%list)
| runs_unreadable (line : string) (rest : list string) (path : string)
    (e : exn) :
    py_not (environ w credential_variable) = false ->
    stdin w = line :: rest ->
    normalize_path (PyStr.strip line) = Ok path ->
    path_exists w path = true ->
    file_text w path = Raise e ->
    runs w (Raise e, (trace_to_exists path ++ [EvOpenRead path])%list)
| runs_no_question (line path doc : string) :
    py_not (environ w credential_variable) = false ->
    stdin w = [line] ->
    normalize_path (PyStr.strip line) = Ok path ->
    path_exists w path = true ->
    file_text w path = Ok doc ->
    runs w (Raise EOFError, trace_to_question path)
| runs_request_failed (line line' : string) (rest : list string)
    (path doc : string) (e : exn) :
    py_not (environ w credential_variable) = false ->
    stdin w = line :: line' :: rest ->
    normalize_path (PyStr.strip line) = Ok path ->
    path_exists w path = true ->
    file_text w path = Ok doc ->
    endpoint w (sent_client (environ w credential_variable))
               (sent_request doc (PyStr.strip line')) = Raise e ->
    runs w (Raise e,
            trace_to_request (environ w credential_variable) path doc
                             (PyStr.strip line'))
| runs_no_choice (line line' : string) (rest : list string)
    (path doc : string) (response : ChatCompletion) :
    py_not (environ w credential_variable) = false ->
    stdin w = line :: line' :: rest ->
    normalize_path (PyStr.strip line) = Ok path ->
    path_exists w path = true ->
    file_text w path = Ok doc ->
    endpoint w (sent_client (environ w credential_variable))
               (sent_request doc (PyStr.strip line')) = Ok response ->
    choices response = [] ->
    runs w (Raise IndexError,
            (trace_to_request (environ w credential_variable) path doc
                              (PyStr.strip line')
             ++ [EvPrint answer_header])%list)
| runs_no_content (line line' : string) (rest : list string)
    (path doc : string) (response : ChatCompletion) (choice : Choice)
    (others : list Choice) :
    py_not (environ w credential_variable) = false ->
    stdin w = line :: line' :: rest ->
    normalize_path (PyStr.strip line) = Ok path ->
    path_exists w path = true ->
    file_text w path = Ok doc ->
    endpoint w (sent_client (environ w credential_variable))
               (sent_request doc (PyStr.strip line')) = Ok response ->
    choices response = choice :: others ->
    message_content (message choice) = None ->
    runs w (Raise AttributeError,
            (trace_to_request (environ w credential_variable) path doc
                              (PyStr.strip line')
             ++ [EvPrint answer_header])%list)
| runs_answer (line line' : string) (rest : list string)
    (path doc : string) (response : ChatCompletion) (choice : Choice)
    (others : list Choice) (answer : string) :
    py_not (environ w credential_variable) = false ->
    stdin w = line :: line' :: rest ->
    normalize_path (PyStr.strip line) = Ok path ->
    path_exists w path = true ->
    file_text w path = Ok doc ->
    endpoint w (sent_client (environ w credential_variable))
               (sent_request doc (PyStr.strip line')) = Ok response ->
    choices response = choice :: others ->
    message_content (message choice) = Some answer ->
    runs w (Ok tt,
            (trace_to_request (environ w credential_variable) path doc
                              (PyStr.strip line')
             ++ [EvPrint answer_header; EvPrint (PyStr.strip answer)])%list).

(** [t] is [s] without its leading and trailing white space: what is cut
    off at either end is white space, and [t] neither starts nor ends with
    white space. *)
Definition stripped_of (s t : string) : Prop :=
  (exists a b, s = a ++ t ++ b
               /\ PyStr.all_space a = true /\ PyStr.all_space b = true)
  /\ (forall c, PyStr.first_char t = Some c -> PyStr.isspace c = false)
  /\ (forall c, PyStr.last_char t = Some c -> PyStr.isspace c = false).

(** A world in which other lines wait on standard input. *)
Definition with_stdin (w : World) (lines : list string) : World :=
  mkWorld (environ w) lines (path_exists w) (file_text w) (endpoint w).

(** A world in which the file text is replaced by [text]. *)
Definition with_file_text (w : World) (text : string -> result string)
  : World :=
  mkWorld (environ w) (stdin w) (path_exists w) text (endpoint w).

(** Symbolic evaluation of [main]: unfold the monad and the statements, and
    nothing of the string functions. *)
Ltac run_step :=
  cbv beta iota zeta delta
    [run main bind os_getenv input print os_path_exists open_read
     chat_completions_create emit lift raise ret unread trace app negb
     item0 strip_method
     trace_to_exists trace_to_question trace_to_request sent_client
     sent_request credential_variable path_prompt question_prompt
     credential_error answer_header not_found_message].

Ltac run_step_all :=
  cbv beta iota zeta delta
    [run main bind os_getenv input print os_path_exists open_read
     chat_completions_create emit lift raise ret unread trace app negb
     item0 strip_method
     trace_to_exists trace_to_question trace_to_request sent_client
     sent_request credential_variable path_prompt question_prompt
     credential_error answer_header not_found_message] in *.

(** Evaluate a run under the equations of the context. *)
Ltac run_eval :=
  intros; run_step_all;
  repeat (match goal with
          | H : _ = _ |- _ => rewrite H
          end; run_step);
  try reflexivity.

(** Settle a statement about the members of an explicit trace. *)
Ltac in_trace :=
  simpl in *; intuition (subst; try discriminate; try reflexivity).

(** ** Sample worlds *)

Definition sample_environ (name : string) : option string :=
  if String.eqb name "GEMINI_API_KEY" then Some "secret" else None.

(** A document of 4000 letters and eleven more characters. *)
Definition long_document : string := PyStr.repeat "a" 4000 ++ "hidden tail".

Definition sample_reply : ChatCompletion :=
  mkChatCompletion
    [mkChoice (mkChatMessage (Some ("  Ada Lovelace. " ++ newline)))].

(** The credential is set, the file is there, the endpoint answers. *)
Definition world_answer : World :=
  mkWorld sample_environ
          ["  C:\docs\a.txt "; " Who wrote it?  "]
          (fun path => String.eqb path "/mnt/c/docs/a.txt")
          (fun path =>
             if String.eqb path "/mnt/c/docs/a.txt" then Ok long_document
             else Raise OSError)
          (fun _ _ => Ok sample_reply).

(** The same, without the file. *)
Definition world_not_found : World :=
  mkWorld sample_environ
          ["  C:\docs\a.txt "; " Who wrote it?  "]
          (fun _ => false)
          (fun _ => Raise OSError)
          (fun _ _ => Ok sample_reply).

(** The same as [world_answer], with the credential unset, and with the
    credential set to the empty string. *)
Definition world_unset : World :=
  mkWorld (fun _ => None) (stdin world_answer) (path_exists world_answer)
          (file_text world_answer) (endpoint world_answer).

Definition world_empty : World :=
  mkWorld (fun _ => Some "") (stdin world_answer) (path_exists world_answer)
          (file_text world_answer) (endpoint world_answer).

(** ** More worlds and views, for the properties beyond the specification *)

(** A world with another environment, another file system, another
    endpoint. *)
Definition with_environ (w : World) (env : string -> option string)
  : World :=
  mkWorld env (stdin w) (path_exists w) (file_text w) (endpoint w).

Definition with_files (w : World) (present : string -> bool)
  (text : string -> result string) : World :=
  mkWorld (environ w) (stdin w) present text (endpoint w).

Definition with_endpoint (w : World)
  (remote : Client -> Request -> result ChatCompletion) : World :=
  mkWorld (environ w) (stdin w) (path_exists w) (file_text w) remote.

(** [response.choices[0].message.content.strip()], the one expression in
    which [main] looks at a reply. *)
Definition first_answer (response : ChatCompletion) : result string :=
  match item0 (choices response) with
  | Ok choice => strip_method (message_content (message choice))
  | Raise e => Raise e
  end.

(** What [main] can tell of the outcome of a request: that it failed, or
    what [first_answer] gives. *)
Definition reply_view (reply : result ChatCompletion)
  : result (result string) :=
  match reply with
  | Ok response => Ok (first_answer response)
  | Raise e => Raise e
  end.

(** How many times a trace opens a file. *)
Fixpoint opens (t : list event) : nat :=
  match t with
  | [] => 0
  | EvOpenRead _ :: t' => S (opens t')
  | _ :: t' => opens t'
  end.

(** The file cannot be decoded; standard input ends early; the endpoint is
    down; the endpoint replies without a choice. *)
Definition world_unreadable : World :=
  with_files world_answer (fun _ => true) (fun _ => Raise UnicodeDecodeError).


Definition world_one_line : World :=
  with_stdin world_answer ["  C:\docs\a.txt "].


Definition world_no_choice : World :=
  with_endpoint world_answer (fun _ _ => Ok (mkChatCompletion [])).

(** ** Facts about the string operations *)

Module PyStrFacts.
Import PyStr.

Lemma append_empty_r (s : string) : s ++ "" = s.
Proof. induction s as [|c s IH]; simpl; [reflexivity | now rewrite IH]. Qed.

Lemma append_assoc (a b c : string) : (a ++ b) ++ c = a ++ b ++ c.
Proof. induction a as [|x a IH]; simpl; [reflexivity | now rewrite IH]. Qed.

Lemma length_append (a b : string) :
  String.length (a ++ b) = String.length a + String.length b.
Proof. induction a as [|x a IH]; simpl; [reflexivity | now rewrite IH]. Qed.

(** *** Searching and cutting *)

Lemma partition_none (c : ascii) (s : string) :
  contains c s = false -> partition c s = None.
Proof.
  induction s as [|d s IH]; simpl; [reflexivity|].
  destruct (Ascii.eqb d c); [discriminate|].
  intros H. now rewrite (IH H).
Qed.

Lemma partition_some (c : ascii) (s : string) :
  contains c s = true ->
  exists l r, partition c s = Some (l, r)
              /\ s = l ++ String c r /\ contains c l = false.
Proof.
  induction s as [|d s IH]; simpl; [discriminate|].
  destruct (Ascii.eqb d c) eqn:E.
  - intros _. apply Ascii.eqb_eq in E. subst d.
    exists "", s. repeat split.
  - intros H. destruct (IH H) as (l & r & Hp & Hs & Hl).
    exists (String d l), r. rewrite Hp. simpl. rewrite E.
    repeat split; [now rewrite Hs | assumption].
Qed.

Lemma contains_append (c : ascii) (a b : string) :
  contains c (a ++ b) = contains c a || contains c b.
Proof.
  induction a as [|d a IH]; simpl; [reflexivity|].
  destruct (Ascii.eqb d c); [reflexivity | exact IH].
Qed.

(** The cut at the first separator is the only cut whose left part has no
    separator. *)
Lemma first_cut_unique (c : ascii) (l l' r r' : string) :
  l ++ String c r = l' ++ String c r' ->
  contains c l = false -> contains c l' = false ->
  l = l' /\ r = r'.
Proof.
  revert l'. induction l as [|d l IH]; intros [|d' l']; simpl.
  - intros H _ _. injection H as ->. now split.
  - intros H _. injection H as <- _. now rewrite Ascii.eqb_refl.
  - intros H. injection H as -> _. now rewrite Ascii.eqb_refl.
  - intros H. injection H as -> H.
    destruct (Ascii.eqb d' c); [discriminate|].
    intros Hl Hl'. destruct (IH _ H Hl Hl') as [-> ->]. now split.
Qed.

Lemma split1_cut (c : ascii) (l r : string) :
  contains c l = false -> split1 c (l ++ String c r) = [l; r].
Proof.
  intros Hl. unfold split1.
  destruct (partition_some c (l ++ String c r)) as (l' & r' & Hp & Hs & Hl').
  - rewrite contains_append. simpl. rewrite Ascii.eqb_refl.
    now destruct (contains c l).
  - rewrite Hp. destruct (first_cut_unique _ _ _ _ _ Hs Hl Hl') as [-> ->].
    reflexivity.
Qed.

(** *** Stripping *)

Lemma lstrip_spec (s : string) :
  exists a, s = a ++ lstrip s /\ all_space a = true.
Proof.
  induction s as [|c s (a & Hs & Ha)]; simpl.
  - now exists "".
  - destruct (isspace c) eqn:E.
    + exists (String c a). simpl. rewrite E, Ha. now rewrite <- Hs.
    + now exists "".
Qed.

Lemma rstrip_spec (s : string) :
  exists b, s = rstrip s ++ b /\ all_space b = true.
Proof.
  induction s as [|c s (b & Hs & Hb)]; simpl.
  - now exists "".
  - destruct (rstrip s) as [|d r] eqn:E.
    + simpl in Hs. destruct (isspace c) eqn:Ec.
      * exists (String c b). simpl. rewrite Ec, Hb. now rewrite <- Hs.
      * exists b. simpl. split; [congruence | assumption].
    + exists b. simpl in *. split; [congruence | assumption].
Qed.

Lemma lstrip_first (s : string) (c : ascii) :
  first_char (lstrip s) = Some c -> isspace c = false.
Proof.
  induction s as [|d s IH]; simpl; [discriminate|].
  destruct (isspace d) eqn:E; [exact IH|].
  simpl. intros H. now injection H as <-.
Qed.

Lemma rstrip_first (s : string) :
  rstrip s = "" \/ first_char (rstrip s) = first_char s.
Proof.
  destruct s as [|c s]; simpl; [now left|].
  destruct (rstrip s); [destruct (isspace c)|]; auto.
Qed.

Lemma rstrip_last (s : string) (c : ascii) :
  last_char (rstrip s) = Some c -> isspace c = false.
Proof.
  induction s as [|d s IH]; simpl; [discriminate|].
  destruct (rstrip s) as [|e r] eqn:E.
  - destruct (isspace d) eqn:Ed; simpl; [discriminate|].
    intros H. now injection H as <-.
  - exact IH.
Qed.

(** [strip] removes white space only, and leaves none at either end. *)
Lemma strip_spec (s : string) : stripped_of s (strip s).
Proof.
  unfold stripped_of, strip. split; [|split].
  - destruct (lstrip_spec s) as (a & Hs & Ha).
    destruct (rstrip_spec (lstrip s)) as (b & Hl & Hb).
    exists a, b. repeat split; try assumption.
    now rewrite <- Hl.
  - intros c H. destruct (rstrip_first (lstrip s)) as [E | E].
    + rewrite E in H. discriminate.
    + rewrite E in H. now apply lstrip_first with s.
  - intros c. apply rstrip_last.
Qed.

(** *** Slicing *)

Lemma take_drop (n : nat) (s : string) : s = take n s ++ drop n s.
Proof.
  revert s. induction n as [|n IH]; intros [|c s]; simpl; try reflexivity.
  now rewrite <- IH.
Qed.

Lemma length_take (n : nat) (s : string) :
  String.length (take n s) = Nat.min n (String.length s).
Proof.
  revert s. induction n as [|n IH]; intros [|c s]; simpl; try reflexivity.
  now rewrite IH.
Qed.

Lemma take_all (n : nat) (s : string) :
  String.length s <= n -> take n s = s.
Proof.
  revert s. induction n as [|n IH]; intros [|c s]; simpl; try reflexivity.
  - lia.
  - intros H. rewrite IH; [reflexivity | lia].
Qed.

Lemma take_append (a b : string) : take (String.length a) (a ++ b) = a.
Proof. induction a as [|c a IH]; simpl; [now destruct b | now rewrite IH]. Qed.

End PyStrFacts.

(** ** [normalize_path] *)

Section NormalizePath.
Import PyStr PyStrFacts.

Example normalize_path_windows :
  normalize_path "C:\Users\x\doc.txt" = Ok "/mnt/c/Users/x/doc.txt".
Proof. reflexivity. Qed.

Example normalize_path_posix :
  normalize_path "/home/user/doc.txt" = Ok "/home/user/doc.txt".
Proof. reflexivity. Qed.

Example normalize_path_second_colon :
  normalize_path "a:b:c\d" = Ok "/mnt/ab:c/d".
Proof. reflexivity. Qed.

Example normalize_path_no_drive : normalize_path ":\x" = Ok "/mnt//x".
Proof. reflexivity. Qed.

Example strip_both_ends :
  strip ("  two words " ++ newline) = "two words" /\ strip "   " = "".
Proof. split; reflexivity. Qed.

Example lower_latin1 : lower "AbZ[@" = "abz[@".
Proof. reflexivity. Qed.

(** A path with a colon and a backslash is cut at its first colon. *)
Lemma normalize_path_cut (drive rest : string) :
  contains ":" drive = false ->
  contains "\" (drive ++ String ":" rest) = true ->
  normalize_path (drive ++ String ":" rest)
  = Ok ("/mnt/" ++ lower drive ++ replace "\" "/" rest).
Proof.
  intros Hd Hb. unfold normalize_path.
  rewrite Hb, contains_append. simpl contains.
  rewrite Bool.orb_true_r. simpl andb. cbv iota.
  now rewrite split1_cut.
Qed.

(** The unpacking of the two pieces never fails. *)
Lemma normalize_path_total (path : string) :
  exists p, normalize_path path = Ok p.
Proof.
  unfold normalize_path.
  destruct (contains ":" path) eqn:Hc; simpl; [|now exists path].
  destruct (contains "\" path); [|now exists path].
  destruct (partition_some _ _ Hc) as (l & r & Hp & _).
  unfold split1. rewrite Hp. eauto.
Qed.

(** C1 (as amended): for every input with both [":"] and ["\"], the result
    is ["/mnt/"], then the lower-cased text before the first [":"], whatever
    its length, then the text after the first [":"] with every ["\"] turned
    into ["/"]. *)
Theorem normalize_path_mount (path : string) :
  contains ":" path = true ->
  contains "\" path = true ->
  exists drive rest,
    path = drive ++ String ":" rest
    /\ contains ":" drive = false
    /\ normalize_path path
       = Ok ("/mnt/" ++ lower drive ++ replace "\" "/" rest).
Proof.
  intros Hc Hb.
  destruct (partition_some _ _ Hc) as (drive & rest & _ & Hs & Hd).
  exists drive, rest. repeat split; try assumption.
  subst path. now apply normalize_path_cut.
Qed.

Lemma normalize_path_mount_witness :
  contains ":" "C:\Users\x\doc.txt" = true
  /\ contains "\" "C:\Users\x\doc.txt" = true
  /\ exists drive rest,
       "C:\Users\x\doc.txt" = drive ++ String ":" rest
       /\ contains ":" drive = false
       /\ normalize_path "C:\Users\x\doc.txt"
          = Ok ("/mnt/" ++ lower drive ++ replace "\" "/" rest).
Proof.
  split; [reflexivity | split; [reflexivity |]].
  apply (normalize_path_mount "C:\Users\x\doc.txt"); reflexivity.
Defined.

(** C1 (as stated) fails: in ["AB:\x"] the character before the first
    [":"] is ["B"], and the result is ["/mnt/ab/x"], not ["/mnt/b/x"]: the
    whole text before the colon is kept, not one character of it. *)
Lemma normalize_path_drive_not_one_char :
  contains ":" "AB:\x" = true
  /\ contains "\" "AB:\x" = true
  /\ normalize_path "AB:\x" = Ok "/mnt/ab/x"
  /\ ~ (exists before c rest,
          "AB:\x" = before ++ String c (String ":" rest)
          /\ contains ":" (before ++ String c "") = false
          /\ normalize_path "AB:\x"
             = Ok ("/mnt/" ++ String (lower_char c) (replace "\" "/" rest))).
Proof.
  repeat split.
  intros (before & c & rest & Hp & Hc & Hn).
  assert (Hcut : "AB" ++ String ":" "\x"
                 = (before ++ String c "") ++ String ":" rest).
  { rewrite append_assoc. exact Hp. }
  destruct (first_cut_unique _ _ _ _ _ Hcut eq_refl Hc) as [_ <-].
  discriminate Hn.
Qed.

(** C6: an input without [":"] or without ["\"] comes back unchanged. *)
Theorem normalize_path_identity (path : string) :
  contains ":" path = false \/ contains "\" path = false ->
  normalize_path path = Ok path.
Proof.
  unfold normalize_path. intros [H | H]; rewrite H.
  - reflexivity.
  - now rewrite Bool.andb_false_r.
Qed.

Lemma normalize_path_identity_witness :
  (contains ":" "/home/user/doc.txt" = false
   \/ contains "\" "/home/user/doc.txt" = false)
  /\ normalize_path "/home/user/doc.txt" = Ok "/home/user/doc.txt".
Proof.
  split; [left; reflexivity |].
  apply (normalize_path_identity "/home/user/doc.txt"). left. reflexivity.
Defined.

End NormalizePath.

(** ** Every run follows one of the ways of [runs] *)

Section RunEquations.
Variable w : World.

Lemma run_no_credential :
  py_not (environ w credential_variable) = true ->
  run w = (Raise credential_error, [EvGetenv credential_variable]).
Proof. run_eval. Qed.

Lemma run_no_path :
  py_not (environ w credential_variable) = false ->
  stdin w = [] ->
  run w = (Raise EOFError,
           [EvGetenv credential_variable; EvPrompt path_prompt; EvReadLine]).
Proof. run_eval. Qed.

Lemma run_not_found (line : string) (rest : list string) (path : string) :
  py_not (environ w credential_variable) = false ->
  stdin w = line :: rest ->
  normalize_path (PyStr.strip line) = Ok path ->
  path_exists w path = false ->
  run w = (Ok tt, (trace_to_exists path ++ [EvPrint not_found_message])%list).
Proof. run_eval. Qed.

Lemma run_unreadable (line : string) (rest : list string) (path : string)
  (e : exn) :
  py_not (environ w credential_variable) = false ->
  stdin w = line :: rest ->
  normalize_path (PyStr.strip line) = Ok path ->
  path_exists w path = true ->
  file_text w path = Raise e ->
  run w = (Raise e, (trace_to_exists path ++ [EvOpenRead path])%list).
Proof. run_eval. Qed.

Lemma run_no_question (line path doc : string) :
  py_not (environ w credential_variable) = false ->
  stdin w = [line] ->
  normalize_path (PyStr.strip line) = Ok path ->
  path_exists w path = true ->
  file_text w path = Ok doc ->
  run w = (Raise EOFError, trace_to_question path).
Proof. run_eval. Qed.

Lemma run_request_failed (line line' : string) (rest : list string)
  (path doc : string) (e : exn) :
  py_not (environ w credential_variable) = false ->
  stdin w = line :: line' :: rest ->
  normalize_path (PyStr.strip line) = Ok path ->
  path_exists w path = true ->
  file_text w path = Ok doc ->
  endpoint w (sent_client (environ w credential_variable))
             (sent_request doc (PyStr.strip line')) = Raise e ->
  run w = (Raise e,
           trace_to_request (environ w credential_variable) path doc
                            (PyStr.strip line')).
Proof. run_eval. Qed.

Lemma run_no_choice (line line' : string) (rest : list string)
  (path doc : string) (response : ChatCompletion) :
  py_not (environ w credential_variable) = false ->
  stdin w = line :: line' :: rest ->
  normalize_path (PyStr.strip line) = Ok path ->
  path_exists w path = true ->
  file_text w path = Ok doc ->
  endpoint w (sent_client (environ w credential_variable))
             (sent_request doc (PyStr.strip line')) = Ok response ->
  choices response = [] ->
  run w = (Raise IndexError,
           (trace_to_request (environ w credential_variable) path doc
                             (PyStr.strip line')
            ++ [EvPrint answer_header])%list).
Proof. run_eval. Qed.

Lemma run_no_content (line line' : string) (rest : list string)
  (path doc : string) (response : ChatCompletion) (choice : Choice)
  (others : list Choice) :
  py_not (environ w credential_variable) = false ->
  stdin w = line :: line' :: rest ->
  normalize_path (PyStr.strip line) = Ok path ->
  path_exists w path = true ->
  file_text w path = Ok doc ->
  endpoint w (sent_client (environ w credential_variable))
             (sent_request doc (PyStr.strip line')) = Ok response ->
  choices response = choice :: others ->
  message_content (message choice) = None ->
  run w = (Raise AttributeError,
           (trace_to_request (environ w credential_variable) path doc
                             (PyStr.strip line')
            ++ [EvPrint answer_header])%list).
Proof. run_eval. Qed.

Lemma run_answer (line line' : string) (rest : list string)
  (path doc : string) (response : ChatCompletion) (choice : Choice)
  (others : list Choice) (answer : string) :
  py_not (environ w credential_variable) = false ->
  stdin w = line :: line' :: rest ->
  normalize_path (PyStr.strip line) = Ok path ->
  path_exists w path = true ->
  file_text w path = Ok doc ->
  endpoint w (sent_client (environ w credential_variable))
             (sent_request doc (PyStr.strip line')) = Ok response ->
  choices response = choice :: others ->
  message_content (message choice) = Some answer ->
  run w = (Ok tt,
           (trace_to_request (environ w credential_variable) path doc
                             (PyStr.strip line')
            ++ [EvPrint answer_header; EvPrint (PyStr.strip answer)])%list).
Proof. run_eval. Qed.

(** Whatever the world, the run is one of the ten. *)
Lemma run_runs : runs w (run w).
Proof.
  destruct (py_not (environ w credential_variable)) eqn:Hkey.
  { rewrite run_no_credential by assumption. now constructor. }
  destruct (stdin w) as [|line more] eqn:Hin.
  { rewrite run_no_path by assumption. now constructor. }
  destruct (normalize_path_total (PyStr.strip line)) as [path Hpath].
  destruct (path_exists w path) eqn:Hex.
  2:{ erewrite run_not_found by eassumption. econstructor; eassumption. }
  destruct (file_text w path) as [doc|e] eqn:Hfile.
  2:{ erewrite run_unreadable by eassumption. econstructor; eassumption. }
  destruct more as [|line' rest].
  { erewrite run_no_question by eassumption. econstructor; eassumption. }
  destruct (endpoint w (sent_client (environ w credential_variable))
                     (sent_request doc (PyStr.strip line')))
    as [response|e] eqn:Hreply.
  2:{ erewrite run_request_failed by eassumption.
      econstructor; eassumption. }
  destruct (choices response) as [|choice others] eqn:Hch.
  { erewrite run_no_choice by eassumption. econstructor; eassumption. }
  destruct (message_content (message choice)) as [answer|] eqn:Hmsg.
  - erewrite run_answer by eassumption. econstructor; eassumption.
  - erewrite run_no_content by eassumption. econstructor; eassumption.
Qed.

End RunEquations.

(** ** The credential check *)

Section Credential.
Variable w : World.

(** C4: with the credential variable unset, [main] raises [ValueError] with
    its message, and the run has shown no prompt, read no line, touched no
    file and sent no request: reading the environment is all it has done. *)
Theorem missing_credential_raises_first :
  environ w "GEMINI_API_KEY" = None ->
  fst (run w)
  = Raise (ValueError "Please set your GEMINI_API_KEY environment variable.")
  /\ snd (run w) = [EvGetenv "GEMINI_API_KEY"]
  /\ stdout_text (snd (run w)) = ""
  /\ forall e, In e (snd (run w)) ->
       is_console e = false /\ is_file e = false /\ is_network e = false.
Proof.
  intros H. rewrite run_no_credential.
  - repeat split; in_trace.
  - unfold credential_variable. now rewrite H.
Qed.

(** C9: an empty credential is refused as an unset one is: the two runs
    are the same run, the [ValueError] of the credential check; so is every
    run whose credential is false as a condition. *)
Theorem empty_credential_refused :
  (environ w "GEMINI_API_KEY" = Some "" ->
   forall w', environ w' "GEMINI_API_KEY" = None -> run w = run w')
  /\ (py_not (environ w "GEMINI_API_KEY") = true ->
      run w
      = (Raise (ValueError
                  "Please set your GEMINI_API_KEY environment variable."),
         [EvGetenv "GEMINI_API_KEY"])).
Proof.
  split.
  - intros H w' H'. rewrite !run_no_credential; try reflexivity.
    + unfold credential_variable. now rewrite H'.
    + unfold credential_variable. now rewrite H.
  - intros H. now rewrite run_no_credential.
Qed.

End Credential.

(** ** The file that is not there *)

Section NotFound.
Variable w : World.
Variables (line : string) (rest : list string) (path : string).
Hypothesis credential : py_not (environ w "GEMINI_API_KEY") = false.
Hypothesis first_line : stdin w = line :: rest.
Hypothesis normalized : normalize_path (PyStr.strip line) = Ok path.
Hypothesis missing : path_exists w path = false.

(** C3: when the normalized path does not exist, the one thing printed is
    [File not found.], no request is sent, and [main] returns: the process
    ends with status 0, no exception leaves it. *)
Theorem file_not_found_returns :
  fst (run w) = Ok tt
  /\ exit_code (fst (run w)) = 0
  /\ printed (snd (run w)) = ["File not found."]
  /\ requests (snd (run w)) = []
  /\ forall e, In e (snd (run w)) -> is_network e = false.
Proof.
  rewrite (run_not_found w line rest path) by assumption.
  repeat split; in_trace.
Qed.

End NotFound.

(** ** Properties of every run *)

Section EveryRun.
Variable w : World.

(** Case analysis on the way the run of [w] goes. *)
Ltac run_cases :=
  let R := fresh "R" in
  pose proof (run_runs w) as R;
  remember (run w) as r eqn:Hr; clear Hr;
  destruct R; unfold trace_to_request, trace_to_question, trace_to_exists.

(** A run sends one request at most. *)
Lemma at_most_one_request : List.length (requests (snd (run w))) <= 1.
Proof. run_cases; simpl; lia. Qed.

(** C10: on the file-not-found path the run takes one line from standard
    input, the path, and never shows the question prompt; and in any run at
    all, the question prompt is shown only if the normalized path exists. *)
Theorem question_only_when_found :
  (forall line rest path,
      py_not (environ w "GEMINI_API_KEY") = false ->
      stdin w = line :: rest ->
      normalize_path (PyStr.strip line) = Ok path ->
      path_exists w path = false ->
      reads (snd (run w)) = 1
      /\ ~ In (EvPrompt "Enter your question about the document: ")
              (snd (run w)))
  /\ (In (EvPrompt "Enter your question about the document: ")
         (snd (run w)) ->
      exists line rest path,
        stdin w = line :: rest
        /\ normalize_path (PyStr.strip line) = Ok path
        /\ path_exists w path = true).
Proof.
  split.
  - intros line rest path Hk Hin Hp Hex.
    rewrite (run_not_found w line rest path) by assumption.
    split; [reflexivity | in_trace].
  - run_cases; intros Hq;
      try (exists line; eexists; exists path; repeat split; eassumption);
      exfalso; revert Hq; in_trace.
Qed.

(** C7: every request of a run carries the model name [gemini-2.0-flash],
    the temperature [0.3], and two messages: the fixed system instruction,
    then, as the user, the prompt assembled from the text of the file and
    the stripped question. *)
#[warnings="-inexact-float"]
Theorem every_request_fixed :
  forall client req,
    In (EvRequest client req) (snd (run w)) ->
    model req = "gemini-2.0-flash"
    /\ temperature req = 0.3%float
    /\ exists line line' rest path doc,
         stdin w = line :: line' :: rest
         /\ normalize_path (PyStr.strip line) = Ok path
         /\ file_text w path = Ok doc
         /\ messages req
            = [mkMessage "system" "You are a helpful assistant.";
               mkMessage "user" (build_prompt doc (PyStr.strip line'))].
Proof.
  intros client req.
  run_cases; intros Hq; simpl in Hq;
    repeat (destruct Hq as [Hq | Hq]; try discriminate Hq);
    try contradiction;
    injection Hq as <- <-;
    (repeat split; try reflexivity);
    exists line, line', rest, path, doc; repeat split; assumption.
Qed.

End EveryRun.

(** ** What is done with the two lines of input *)

Section Inputs.
Import PyStrFacts.
Variable w : World.

(** The run of a world reads its lines through [strip] alone. *)
Lemma run_with_stdin (lines : list string) :
  map PyStr.strip lines = map PyStr.strip (stdin w) ->
  run (with_stdin w lines) = run w.
Proof.
  intros Hmap. pose proof (run_runs w) as R.
  remember (run w) as r eqn:Hr. clear Hr.
  destruct R;
    match goal with
    | H : stdin w = _ |- _ => rewrite H in Hmap
    | _ => idtac
    end;
    try (destruct lines as [|l1 [|l2 more]]; simpl in Hmap;
         try discriminate Hmap; injection Hmap as Hmap; intros);
    repeat match goal with
           | H : PyStr.strip _ = PyStr.strip _ |- _ =>
               rewrite <- H in *; clear H
           end.
  - apply run_no_credential; simpl; assumption.
  - destruct lines; [|discriminate Hmap].
    apply run_no_path; simpl; [assumption | reflexivity].
  - eapply (run_not_found (with_stdin w _) l1);
      simpl; try eassumption; reflexivity.
  - eapply (run_not_found (with_stdin w _) l1);
      simpl; try eassumption; reflexivity.
  - eapply (run_unreadable (with_stdin w _) l1);
      simpl; try eassumption; reflexivity.
  - eapply (run_unreadable (with_stdin w _) l1);
      simpl; try eassumption; reflexivity.
  - eapply (run_no_question (with_stdin w _) l1);
      simpl; try eassumption; reflexivity.
  - eapply (run_request_failed (with_stdin w _) l1 l2);
      simpl; try eassumption; reflexivity.
  - eapply (run_no_choice (with_stdin w _) l1 l2);
      simpl; try eassumption; reflexivity.
  - eapply (run_no_content (with_stdin w _) l1 l2);
      simpl; try eassumption; reflexivity.
  - eapply (run_answer (with_stdin w _) l1 l2);
      simpl; try eassumption; reflexivity.
Qed.

End Inputs.

Section StrippedInputs.
Import PyStrFacts.
Variable w : World.

(** C8: both lines of input are used through [strip] alone.  The path
    given to the file system is [normalize_path] of the first line without
    its surrounding white space; the question in the prompt is the second
    line without its surrounding white space; and changing the white space
    around the lines of standard input changes nothing of the run. *)
Theorem inputs_stripped :
  (forall path,
      In (EvExists path) (snd (run w)) \/ In (EvOpenRead path) (snd (run w)) ->
      exists line rest p,
        stdin w = line :: rest
        /\ stripped_of line p /\ normalize_path p = Ok path)
  /\ (forall client req,
         In (EvRequest client req) (snd (run w)) ->
         exists line line' rest doc q,
           stdin w = line :: line' :: rest
           /\ stripped_of line' q
           /\ messages req
              = [system_message; mkMessage "user" (build_prompt doc q)])
  /\ (forall lines,
         map PyStr.strip lines = map PyStr.strip (stdin w) ->
         run (with_stdin w lines) = run w).
Proof.
  split; [|split].
  - intros p. pose proof (run_runs w) as R.
    remember (run w) as r eqn:Hr. clear Hr.
    destruct R;
      unfold trace_to_request, trace_to_question, trace_to_exists;
      intros Hq;
      try (exists line; eexists; exists (PyStr.strip line);
           split; [eassumption | split; [apply strip_spec |]]);
      simpl in Hq;
      repeat (destruct Hq as [Hq | Hq]; try discriminate Hq;
              try contradiction);
      try (injection Hq as <-; assumption).
  - intros client req. pose proof (run_runs w) as R.
    remember (run w) as r eqn:Hr. clear Hr.
    destruct R;
      unfold trace_to_request, trace_to_question, trace_to_exists;
      intros Hq; simpl in Hq;
      repeat (destruct Hq as [Hq | Hq]; try discriminate Hq);
      try contradiction;
      injection Hq as <- <-;
      exists line, line', rest, doc, (PyStr.strip line');
      (split; [assumption | split; [apply strip_spec | reflexivity]]).
  - apply run_with_stdin.
Qed.

End StrippedInputs.

(** ** The document and the answer *)

Lemma requests_app (s t : list event) :
  requests (s ++ t) = (requests s ++ requests t)%list.
Proof.
  induction s as [|e s IH]; simpl; [reflexivity|].
  destruct e; simpl; now rewrite IH.
Qed.

(** The prompt, and so the request, is made of the first 4000 characters of
    the document and of nothing else of it. *)
Lemma sent_request_take (doc doc' question : string) :
  PyStr.take 4000 doc' = PyStr.take 4000 doc ->
  sent_request doc' question = sent_request doc question.
Proof. unfold sent_request, build_prompt. now intros ->. Qed.

Section Sends.
Variable w : World.
Variables (line line' : string) (rest : list string) (path doc : string).
Hypothesis credential : py_not (environ w credential_variable) = false.
Hypothesis two_lines : stdin w = line :: line' :: rest.
Hypothesis normalized : normalize_path (PyStr.strip line) = Ok path.
Hypothesis found : path_exists w path = true.
Hypothesis text : file_text w path = Ok doc.

(** Once the file is read and the question is there, the request goes
    out, and nothing after it is a request. *)
Lemma run_sends :
  exists r tail,
    run w = (r, (trace_to_request (environ w credential_variable) path doc
                                  (PyStr.strip line') ++ tail)%list)
    /\ requests tail = [].
Proof.
  destruct (endpoint w (sent_client (environ w credential_variable))
                     (sent_request doc (PyStr.strip line')))
    as [response|e] eqn:Hreply.
  2:{ exists (Raise e), [].
      erewrite run_request_failed by eassumption.
      now rewrite app_nil_r. }
  destruct (choices response) as [|choice others] eqn:Hch.
  { eexists _, _. erewrite run_no_choice by eassumption. now split. }
  destruct (message_content (message choice)) as [answer|] eqn:Hmsg.
  - eexists _, _. erewrite run_answer by eassumption. now split.
  - eexists _, _. erewrite run_no_content by eassumption. now split.
Qed.

Lemma run_requests :
  requests (snd (run w)) = [sent_request doc (PyStr.strip line')].
Proof.
  destruct run_sends as (r & tail & Hrun & Htail).
  rewrite Hrun. cbn [snd]. rewrite requests_app, Htail. reflexivity.
Qed.

End Sends.

Section Document.
Import PyStrFacts.
Variable w : World.
Variables (line line' : string) (rest : list string) (path doc : string).
Hypothesis credential : py_not (environ w "GEMINI_API_KEY") = false.
Hypothesis two_lines : stdin w = line :: line' :: rest.
Hypothesis normalized : normalize_path (PyStr.strip line) = Ok path.
Hypothesis found : path_exists w path = true.
Hypothesis text : file_text w path = Ok doc.

(** C2: the prompt of the request embeds the first 4000 characters of the
    document, all of it when it has no more, and the request is the same
    whatever the document holds from index 4000 on. *)
#[warnings="-inexact-float"]
Theorem document_truncated :
  requests (snd (run w))
  = [mkRequest "gemini-2.0-flash"
       [system_message;
        mkMessage "user"
          (prompt_head ++ PyStr.take 4000 doc ++ prompt_mid
           ++ PyStr.strip line' ++ prompt_tail)]
       0.3%float]
  /\ doc = PyStr.take 4000 doc ++ PyStr.drop 4000 doc
  /\ String.length (PyStr.take 4000 doc) = Nat.min 4000 (String.length doc)
  /\ (String.length doc <= 4000 -> PyStr.take 4000 doc = doc)
  /\ forall other doc',
       other path = Ok doc' ->
       PyStr.take 4000 doc' = PyStr.take 4000 doc ->
       requests (snd (run (with_file_text w other)))
       = requests (snd (run w)).
Proof.
  split; [exact (run_requests w line line' rest path doc credential
                              two_lines normalized found text)|].
  split; [apply take_drop|].
  split; [apply length_take|].
  split; [apply take_all|].
  intros other doc' Hother Htake.
  rewrite (run_requests w line line' rest path doc) by assumption.
  rewrite (run_requests (with_file_text w other) line line' rest path doc')
    by assumption.
  now rewrite (sent_request_take doc doc').
Qed.

End Document.

Section Answer.
Import PyStrFacts.
Variable w : World.
Variables (line line' : string) (rest : list string) (path doc : string).
Variables (response : ChatCompletion) (choice : Choice)
  (others : list Choice) (answer : string).
Hypothesis credential : py_not (environ w "GEMINI_API_KEY") = false.
Hypothesis two_lines : stdin w = line :: line' :: rest.
Hypothesis normalized : normalize_path (PyStr.strip line) = Ok path.
Hypothesis found : path_exists w path = true.
Hypothesis text : file_text w path = Ok doc.
Hypothesis reply :
  endpoint w (sent_client (environ w "GEMINI_API_KEY"))
             (sent_request doc (PyStr.strip line')) = Ok response.
Hypothesis first_choice : choices response = choice :: others.
Hypothesis content_text : message_content (message choice) = Some answer.

(** C5: when the first choice of the reply has the text [answer], the run
    ends normally and its [print] calls are two: the header, a line feed
    before [=== Answer ===], and [answer] without its surrounding white
    space.  The lines printed are so ["\n=== Answer ===\n"] and the stripped
    answer; on standard output they come after the two prompts of [input],
    and [print] ends the last line too. *)
Theorem answer_printed :
  fst (run w) = Ok tt
  /\ printed (snd (run w))
     = [newline ++ "=== Answer ==="; PyStr.strip answer]
  /\ String.concat newline (printed (snd (run w)))
     = newline ++ "=== Answer ===" ++ newline ++ PyStr.strip answer
  /\ stdout_text (snd (run w))
     = "Enter path to your text file: "
       ++ "Enter your question about the document: "
       ++ (newline ++ "=== Answer ===" ++ newline ++ PyStr.strip answer)
       ++ newline
  /\ stripped_of answer (PyStr.strip answer).
Proof.
  rewrite (run_answer w line line' rest path doc response choice others
                      answer) by assumption.
  split; [reflexivity|].
  split; [reflexivity|].
  split; [reflexivity|].
  split; [reflexivity | apply strip_spec].
Qed.

End Answer.

(** ** The theorems on the sample worlds *)

Example run_world_answer :
  run world_answer
  = (Ok tt,
     [EvGetenv "GEMINI_API_KEY";
      EvPrompt "Enter path to your text file: "; EvReadLine;
      EvExists "/mnt/c/docs/a.txt"; EvOpenRead "/mnt/c/docs/a.txt";
      EvPrompt "Enter your question about the document: "; EvReadLine;
      EvRequest (sent_client (Some "secret"))
                (sent_request long_document "Who wrote it?");
      EvPrint (newline ++ "=== Answer ===");
      EvPrint "Ada Lovelace."]).
Proof. vm_compute. reflexivity. Qed.

Example run_world_not_found :
  run world_not_found
  = (Ok tt,
     [EvGetenv "GEMINI_API_KEY";
      EvPrompt "Enter path to your text file: "; EvReadLine;
      EvExists "/mnt/c/docs/a.txt"; EvPrint "File not found."]).
Proof. reflexivity. Qed.

Lemma missing_credential_raises_first_witness :
  environ world_unset "GEMINI_API_KEY" = None
  /\ fst (run world_unset)
     = Raise (ValueError
                "Please set your GEMINI_API_KEY environment variable.")
  /\ snd (run world_unset) = [EvGetenv "GEMINI_API_KEY"].
Proof.
  split; [reflexivity|].
  destruct (missing_credential_raises_first world_unset eq_refl)
    as (Hfst & Hsnd & _).
  split; [exact Hfst | exact Hsnd].
Defined.

Lemma empty_credential_refused_witness :
  environ world_empty "GEMINI_API_KEY" = Some ""
  /\ environ world_unset "GEMINI_API_KEY" = None
  /\ run world_empty = run world_unset.
Proof.
  split; [reflexivity | split; [reflexivity|]].
  exact (proj1 (empty_credential_refused world_empty) eq_refl
               world_unset eq_refl).
Defined.

Lemma file_not_found_returns_witness :
  path_exists world_not_found "/mnt/c/docs/a.txt" = false
  /\ printed (snd (run world_not_found)) = ["File not found."]
  /\ requests (snd (run world_not_found)) = []
  /\ exit_code (fst (run world_not_found)) = 0.
Proof.
  split; [reflexivity|].
  destruct (file_not_found_returns world_not_found "  C:\docs\a.txt "
              [" Who wrote it?  "] "/mnt/c/docs/a.txt"
              eq_refl eq_refl eq_refl eq_refl)
    as (_ & Hexit & Hprinted & Hrequests & _).
  split; [exact Hprinted | split; [exact Hrequests | exact Hexit]].
Defined.

Lemma question_only_when_found_witness :
  reads (snd (run world_not_found)) = 1
  /\ ~ In (EvPrompt "Enter your question about the document: ")
          (snd (run world_not_found)).
Proof.
  exact (proj1 (question_only_when_found world_not_found)
               "  C:\docs\a.txt " [" Who wrote it?  "] "/mnt/c/docs/a.txt"
               eq_refl eq_refl eq_refl eq_refl).
Defined.

#[warnings="-inexact-float"]
Lemma every_request_fixed_witness :
  In (EvRequest (sent_client (Some "secret"))
                (sent_request long_document "Who wrote it?"))
     (snd (run world_answer))
  /\ model (sent_request long_document "Who wrote it?") = "gemini-2.0-flash"
  /\ temperature (sent_request long_document "Who wrote it?") = 0.3%float.
Proof.
  assert (Hin : In (EvRequest (sent_client (Some "secret"))
                              (sent_request long_document "Who wrote it?"))
                   (snd (run world_answer))).
  { vm_compute. do 7 right. left. reflexivity. }
  split; [exact Hin|].
  destruct (every_request_fixed world_answer _ _ Hin) as (Hm & Ht & _).
  split; [exact Hm | exact Ht].
Defined.

Lemma inputs_stripped_witness :
  map PyStr.strip ["C:\docs\a.txt"; "Who wrote it?"]
  = map PyStr.strip (stdin world_answer)
  /\ run (with_stdin world_answer ["C:\docs\a.txt"; "Who wrote it?"])
     = run world_answer.
Proof.
  split; [reflexivity|].
  exact (proj2 (proj2 (inputs_stripped world_answer))
               ["C:\docs\a.txt"; "Who wrote it?"] eq_refl).
Defined.

Lemma document_truncated_witness :
  String.length long_document = 4011
  /\ String.length (PyStr.take 4000 long_document) = 4000
  /\ requests (snd (run (with_file_text world_answer
                           (fun _ => Ok (PyStr.repeat "a" 4000)))))
     = requests (snd (run world_answer)).
Proof.
  split; [vm_compute; reflexivity|].
  destruct (document_truncated world_answer "  C:\docs\a.txt "
              " Who wrote it?  " [] "/mnt/c/docs/a.txt" long_document
              eq_refl eq_refl eq_refl eq_refl eq_refl)
    as (_ & _ & Hlen & _ & Hsame).
  split.
  - rewrite Hlen. vm_compute. reflexivity.
  - apply (Hsame (fun _ => Ok (PyStr.repeat "a" 4000))
                 (PyStr.repeat "a" 4000)).
    + reflexivity.
    + vm_compute. reflexivity.
Defined.

Lemma answer_printed_witness :
  fst (run world_answer) = Ok tt
  /\ printed (snd (run world_answer))
     = [newline ++ "=== Answer ==="; "Ada Lovelace."].
Proof.
  destruct (answer_printed world_answer "  C:\docs\a.txt "
              " Who wrote it?  " [] "/mnt/c/docs/a.txt" long_document
              sample_reply
              (mkChoice (mkChatMessage (Some ("  Ada Lovelace. " ++ newline))))
              [] ("  Ada Lovelace. " ++ newline)
              eq_refl eq_refl eq_refl eq_refl eq_refl eq_refl eq_refl
              eq_refl)
    as (Hfst & Hprinted & _).
  split; [exact Hfst | exact Hprinted].
Defined.

(** * Beyond the specification *)

(** ** [normalize_path]: what happens around the first colon *)

Section NormalizePathMore.
Import PyStr PyStrFacts.

(** Lower-casing neither makes nor removes a backslash. *)
Lemma lower_char_backslash (c : ascii) :
  Ascii.eqb (lower_char c) "\" = Ascii.eqb c "\".
Proof. destruct c as [[] [] [] [] [] [] [] []]; reflexivity. Qed.

Lemma contains_backslash_lower (s : string) :
  contains "\" (lower s) = contains "\" s.
Proof.
  induction s as [|c s IH]; simpl; [reflexivity|].
  now rewrite lower_char_backslash, IH.
Qed.

Lemma contains_backslash_replace (s : string) :
  contains "\" (replace "\" "/" s) = false.
Proof.
  induction s as [|c s IH]; simpl; [reflexivity|].
  destruct (Ascii.eqb c "\") eqn:E; [exact IH|].
  now rewrite E.
Qed.

Lemma normalize_path_unchanged (path : string) :
  contains "\" path = false -> normalize_path path = Ok path.
Proof.
  intros H. unfold normalize_path. now rewrite H, Bool.andb_false_r.
Qed.

(** The result of cutting [drive ++ ":" ++ rest], whether or not there is
    a backslash to replace. *)
Lemma normalize_path_cut_cases (drive rest : string) :
  contains ":" drive = false ->
  normalize_path (drive ++ String ":" rest)
  = Ok (if contains "\" (drive ++ String ":" rest)
        then "/mnt/" ++ lower drive ++ replace "\" "/" rest
        else drive ++ String ":" rest).
Proof.
  intros Hd. destruct (contains "\" (drive ++ String ":" rest)) eqn:Hb.
  - now apply normalize_path_cut.
  - now apply normalize_path_unchanged.
Qed.

(** X1: [normalize_path] never raises, whatever the input: the unpacking of
    [path.split(":", 1)] always finds its two pieces; and the result is the
    input itself or a path under ["/mnt/"]. *)
Theorem normalize_path_never_raises (path : string) :
  exists out,
    normalize_path path = Ok out
    /\ (out = path \/ exists tail, out = "/mnt/" ++ tail).
Proof.
  destruct (contains ":" path) eqn:Hc.
  - destruct (partition_some _ _ Hc) as (drive & rest & _ & -> & Hd).
    rewrite (normalize_path_cut_cases drive rest Hd).
    destruct (contains "\" (drive ++ String ":" rest)); eauto.
  - exists path. split; [|now left].
    unfold normalize_path. now rewrite Hc.
Qed.

(** X2: backslashes are replaced after the first colon only.  The result
    for a path with a colon and a backslash still has a backslash exactly
    when one stands before the first colon. *)
Theorem normalize_path_keeps_drive_backslash (drive rest : string) :
  contains ":" drive = false ->
  contains "\" (drive ++ String ":" rest) = true ->
  exists out,
    normalize_path (drive ++ String ":" rest) = Ok out
    /\ contains "\" out = contains "\" drive.
Proof.
  intros Hd Hb. rewrite (normalize_path_cut drive rest Hd Hb).
  eexists. split; [reflexivity|].
  rewrite !contains_append, contains_backslash_lower,
    contains_backslash_replace.
  simpl. now rewrite Bool.orb_false_r.
Qed.

Lemma normalize_path_keeps_drive_backslash_witness :
  contains ":" "a\b" = false
  /\ contains "\" ("a\b" ++ String ":" "c\d") = true
  /\ exists out,
       normalize_path ("a\b" ++ String ":" "c\d") = Ok out
       /\ contains "\" out = contains "\" "a\b".
Proof.
  split; [reflexivity | split; [reflexivity|]].
  apply (normalize_path_keeps_drive_backslash "a\b" "c\d"); reflexivity.
Defined.

(** X3: when no backslash stands before the first colon, normalizing is
    idempotent: the result is a path that [normalize_path] leaves alone. *)
Theorem normalize_path_idempotent (drive rest : string) :
  contains ":" drive = false ->
  contains "\" drive = false ->
  exists out,
    normalize_path (drive ++ String ":" rest) = Ok out
    /\ normalize_path out = Ok out.
Proof.
  intros Hd Hb. rewrite (normalize_path_cut_cases drive rest Hd).
  eexists. split; [reflexivity|].
  apply normalize_path_unchanged.
  destruct (contains "\" (drive ++ String ":" rest)) eqn:Hp.
  - rewrite !contains_append, contains_backslash_lower,
      contains_backslash_replace, Hb. reflexivity.
  - exact Hp.
Qed.

Lemma normalize_path_idempotent_witness :
  contains ":" "C" = false
  /\ contains "\" "C" = false
  /\ exists out,
       normalize_path ("C" ++ String ":" "\Users\x:y") = Ok out
       /\ normalize_path out = Ok out.
Proof.
  split; [reflexivity | split; [reflexivity|]].
  apply (normalize_path_idempotent "C" "\Users\x:y"); reflexivity.
Defined.

(** With a backslash before the first colon and a second colon, a second
    pass changes the path again. *)
Example normalize_path_twice :
  normalize_path "a\b:c:d" = Ok "/mnt/a\bc:d"
  /\ normalize_path "/mnt/a\bc:d" = Ok "/mnt//mnt/a\bcd".
Proof. split; reflexivity. Qed.

End NormalizePathMore.

(** ** The prompt template *)

Section PromptMore.
Import PyStrFacts.

(** X4: the prompt is 162 characters of template, the document up to its
    4000th character, and the whole question: the document's share is
    bounded, the question's is not. *)
Theorem build_prompt_length (doc question : string) :
  String.length (build_prompt doc question)
  = 162 + Nat.min 4000 (String.length doc) + String.length question.
Proof.
  unfold build_prompt.
  rewrite !length_append, length_take.
  change (String.length prompt_head) with 94.
  change (String.length prompt_mid) with 23.
  change (String.length prompt_tail) with 45.
  lia.
Qed.



End PromptMore.

(** ** What a run uses of its world, and how much *)

Section RunMore.
Variable w : World.

Ltac by_run_cases :=
  let R := fresh "R" in
  pose proof (run_runs w) as R;
  remember (run w) as r eqn:Hr; clear Hr;
  destruct R; unfold trace_to_request, trace_to_question, trace_to_exists.


(** X7: every request goes through a client that holds the credential as
    the environment gives it, not stripped, and the one base URL; and a
    request is sent only with a credential that is not empty. *)
Theorem request_client :
  forall client req,
    In (EvRequest client req) (snd (run w)) ->
    client
    = OpenAI (environ w "GEMINI_API_KEY")
             "https://generativelanguage.googleapis.com/v1beta/openai/"
    /\ exists c key, environ w "GEMINI_API_KEY" = Some (String c key).
Proof.
  intros client req.
  by_run_cases; intros Hq; simpl in Hq;
    repeat (destruct Hq as [Hq | Hq]; try discriminate Hq);
    try contradiction;
    injection Hq as <- <-;
    (split; [reflexivity|]);
    unfold credential_variable in *;
    destruct (environ w "GEMINI_API_KEY") as [[|c key]|];
    try discriminate; eauto.
Qed.

(** X8: [main] returns normally in two ways only, after [File not found.]
    or after the header and an answer; and when an exception leaves it, what
    was printed is nothing or the header alone. *)
Theorem run_outcomes :
  (fst (run w) = Ok tt ->
   printed (snd (run w)) = ["File not found."]
   \/ exists answer,
        printed (snd (run w)) = [newline ++ "=== Answer ==="; answer])
  /\ (forall e, fst (run w) = Raise e ->
        printed (snd (run w)) = []
        \/ printed (snd (run w)) = [newline ++ "=== Answer ==="]).
Proof.
  by_run_cases; simpl; split; intros; try discriminate; eauto.
Qed.



Ltac run_norm :=
  run_step;
  cbn [with_environ with_files with_endpoint
       environ stdin path_exists file_text endpoint
       choices message message_content].



(** X11: of a reply a run uses the stripped text of the first choice and
    nothing else: with any other endpoint whose replies fail alike or have
    the same first answer, the run is the same. *)
Theorem run_with_endpoint
  (remote : Client -> Request -> result ChatCompletion) :
  (forall client req,
      reply_view (remote client req) = reply_view (endpoint w client req)) ->
  run (with_endpoint w remote) = run w.
Proof.
  intros H. run_norm.
  destruct (py_not (environ w "GEMINI_API_KEY")); run_norm; [reflexivity|].
  destruct (stdin w) as [|line more]; run_norm; [reflexivity|].
  destruct (normalize_path (PyStr.strip line)) as [path|e];
    run_norm; [|reflexivity].
  destruct (path_exists w path); run_norm; [|reflexivity].
  destruct (file_text w path) as [doc|e]; run_norm; [|reflexivity].
  destruct more as [|line' rest]; run_norm; [reflexivity|].
  match goal with
  | |- context [remote ?c ?r] =>
      specialize (H c r);
      destruct (remote c r) as [resp'|e'];
      destruct (endpoint w c r) as [resp|e]
  end; simpl in H; try discriminate H.
  - injection H as H. unfold first_answer, item0, strip_method in H.
    destruct (choices resp') as [|[[[answer'|]]] others'];
      destruct (choices resp) as [|[[[answer|]]] others];
      simpl in H; try discriminate H; run_norm; try reflexivity.
    injection H as ->. reflexivity.
  - injection H as ->. reflexivity.
Qed.

End RunMore.

(** ** The faults [main] does not handle *)

Section Faults.
Variable w : World.
Hypothesis credential : py_not (environ w "GEMINI_API_KEY") = false.


Variables (line : string) (rest : list string) (path : string).
Hypothesis normalized : normalize_path (PyStr.strip line) = Ok path.
Hypothesis found : path_exists w path = true.

(** X13: a file that exists and cannot be opened, read or decoded is not
    reported as missing: the exception leaves [main] (status 1), nothing
    has been printed, the question has not been asked and no request has
    been sent. *)
Theorem unreadable_file_raises (e : exn) :
  stdin w = line :: rest ->
  file_text w path = Raise e ->
  fst (run w) = Raise e
  /\ exit_code (fst (run w)) = 1
  /\ printed (snd (run w)) = []
  /\ reads (snd (run w)) = 1
  /\ requests (snd (run w)) = [].
Proof.
  intros Hin Htext.
  rewrite (run_unreadable w line rest path e) by assumption.
  repeat split.
Qed.

Variable doc : string.
Hypothesis text : file_text w path = Ok doc.

(** X14: when standard input ends after the path, the file has been read
    and the question prompt shown when [EOFError] leaves [main]; no request
    has been sent. *)
Theorem no_question_line :
  stdin w = [line] ->
  fst (run w) = Raise EOFError
  /\ opens (snd (run w)) = 1
  /\ stdout_text (snd (run w))
     = "Enter path to your text file: "
       ++ "Enter your question about the document: "
  /\ requests (snd (run w)) = [].
Proof.
  intros Hin. rewrite (run_no_question w line path doc) by assumption.
  repeat split.
Qed.

Variable line' : string.


(** X16: the header is printed before the reply is looked at.  With a
    reply that has no choice ([IndexError]) or whose first choice has no
    text ([AttributeError]), the header is on standard output when the
    exception leaves [main], and no answer follows it. *)
Theorem header_before_answer (response : ChatCompletion) (e : exn) :
  stdin w = line :: line' :: rest ->
  endpoint w (sent_client (environ w "GEMINI_API_KEY"))
             (sent_request doc (PyStr.strip line')) = Ok response ->
  first_answer response = Raise e ->
  fst (run w) = Raise e
  /\ (e = IndexError \/ e = AttributeError)
  /\ printed (snd (run w)) = [newline ++ "=== Answer ==="].
Proof.
  intros Hin Hreply Hanswer. unfold first_answer, item0 in Hanswer.
  destruct (choices response) as [|choice others] eqn:Hch.
  - injection Hanswer as <-.
    rewrite (run_no_choice w line line' rest path doc response)
      by assumption.
    repeat split. now left.
  - unfold strip_method in Hanswer.
    destruct (message_content (message choice)) as [answer|] eqn:Hmsg;
      [discriminate Hanswer|].
    injection Hanswer as <-.
    rewrite (run_no_content w line line' rest path doc response choice
                            others) by assumption.
    repeat split. now right.
Qed.

End Faults.

(** ** These properties on the sample worlds *)

Lemma request_client_witness :
  In (EvRequest (sent_client (Some "secret"))
                (sent_request long_document "Who wrote it?"))
     (snd (run world_answer))
  /\ sent_client (Some "secret")
     = OpenAI (environ world_answer "GEMINI_API_KEY")
              "https://generativelanguage.googleapis.com/v1beta/openai/".
Proof.
  assert (Hin : In (EvRequest (sent_client (Some "secret"))
                              (sent_request long_document "Who wrote it?"))
                   (snd (run world_answer))).
  { vm_compute. do 7 right. left. reflexivity. }
  split; [exact Hin|].
  exact (proj1 (request_client world_answer _ _ Hin)).
Defined.

Lemma run_outcomes_witness :
  fst (run world_not_found) = Ok tt
  /\ (printed (snd (run world_not_found)) = ["File not found."]
      \/ exists answer,
           printed (snd (run world_not_found))
           = [newline ++ "=== Answer ==="; answer]).
Proof.
  split; [reflexivity|].
  exact (proj1 (run_outcomes world_not_found) eq_refl).
Defined.



Lemma run_with_endpoint_witness :
  run (with_endpoint world_answer
         (fun _ _ =>
            Ok (mkChatCompletion
                  [mkChoice (mkChatMessage (Some "Ada Lovelace."));
                   mkChoice (mkChatMessage None)])))
  = run world_answer.
Proof.
  apply (run_with_endpoint world_answer). intros client req. reflexivity.
Defined.


Lemma unreadable_file_raises_witness :
  file_text world_unreadable "/mnt/c/docs/a.txt" = Raise UnicodeDecodeError
  /\ fst (run world_unreadable) = Raise UnicodeDecodeError
  /\ printed (snd (run world_unreadable)) = [].
Proof.
  split; [reflexivity|].
  destruct (unreadable_file_raises world_unreadable eq_refl
              "  C:\docs\a.txt " [" Who wrote it?  "] "/mnt/c/docs/a.txt"
              eq_refl eq_refl UnicodeDecodeError eq_refl eq_refl)
    as (Hf & _ & Hp & _).
  split; [exact Hf | exact Hp].
Defined.

Lemma no_question_line_witness :
  stdin world_one_line = ["  C:\docs\a.txt "]
  /\ fst (run world_one_line) = Raise EOFError
  /\ opens (snd (run world_one_line)) = 1.
Proof.
  split; [reflexivity|].
  destruct (no_question_line world_one_line eq_refl
              "  C:\docs\a.txt " "/mnt/c/docs/a.txt"
              eq_refl eq_refl long_document eq_refl eq_refl)
    as (Hf & Ho & _).
  split; [exact Hf | exact Ho].
Defined.


Lemma header_before_answer_witness :
  first_answer (mkChatCompletion []) = Raise IndexError
  /\ fst (run world_no_choice) = Raise IndexError
  /\ printed (snd (run world_no_choice)) = [newline ++ "=== Answer ==="].
Proof.
  split; [reflexivity|].
  destruct (header_before_answer world_no_choice eq_refl
              "  C:\docs\a.txt " [] "/mnt/c/docs/a.txt"
              eq_refl eq_refl long_document eq_refl " Who wrote it?  "
              (mkChatCompletion []) IndexError eq_refl eq_refl eq_refl)
    as (Hf & _ & Hp).
  split; [exact Hf | exact Hp].
Defined.
